(** * Weather agent example: a shallow embedding and its verification

    Source: python/packages/ag-ui/agent_framework_ag_ui_examples/agents/weather_agent.py

    The module defines two tool functions, [get_weather] and [get_forecast],
    and a factory [weather_agent] that hands them to the framework's
    [ChatAgent] constructor.  Every function writes to the module logger;
    the embedding threads the emitted log records (and, for the factory, the
    state of the framework) through a small state-and-exception monad. *)

From Stdlib Require Import List ZArith NArith Lia Bool String Ascii.
From Stdlib Require Import DecimalString.
From Stdlib Require DecimalPos DecimalZ.
Import ListNotations.

Local Open Scope Z_scope.

(** ** Python strings

    A Python [str] is a sequence of Unicode code points. *)

Definition pystr : Type := list N.

(** An ASCII literal of the source, one code point per character. *)
Definition lit (s : string) : pystr := map N_of_ascii (list_ascii_of_string s).

Definition newline : pystr := [10%N].

(** U+00B0 DEGREE SIGN, the one non-ASCII character of the source. *)
Definition degree_sign : pystr := [176%N].

Definition pystr_eqb (a b : pystr) : bool :=
  if list_eq_dec N.eq_dec a b then true else false.

Definition is_ascii (c : N) : bool := (c <? 128)%N.

(** [str.lower] on one ASCII character: [A]..[Z] move to [a]..[z]. *)
Definition ascii_lower (c : N) : N :=
  if ((65 <=? c) && (c <=? 90))%N then (c + 32)%N else c.

Definition ascii_upper (c : N) : N :=
  if ((97 <=? c) && (c <=? 122))%N then (c - 32)%N else c.

(** [sep.join(parts)] *)
Fixpoint str_join (sep : pystr) (parts : list pystr) : pystr :=
  match parts with
  | [] => []
  | [p] => p
  | p :: rest => p ++ sep ++ str_join sep rest
  end.

(** The text of [str(n)] for a Python [int]: decimal digits, with a leading
    minus sign for a negative number.  Whether the interpreter agrees to
    produce it is [int_str_too_long] below. *)
Definition str_of_int (n : Z) : pystr := lit (NilZero.string_of_int (Z.to_int n)).

(** [repr(s)] for a [str] holding no quote, backslash or non-printable
    character: the text between single quotes.  The only strings the module
    passes to [repr] are the keys and the conditions of its tables, all of
    them lower-case letters and spaces. *)
Definition repr_str (s : pystr) : pystr := lit "'" ++ s ++ lit "'".

(** ** Python values and dictionaries *)

Inductive pyval : Type :=
| PyInt (n : Z)
| PyStr (s : pystr).

(** A [dict] literal keeps its entries in the order they are written. *)
Definition pydict (V : Type) : Type := list (pystr * V).

(** [key in d] *)
Definition dict_contains {V} (key : pystr) (d : pydict V) : bool :=
  existsb (fun kv => pystr_eqb key (fst kv)) d.

(** [list(d.keys())] *)
Definition dict_keys {V} (d : pydict V) : list pystr := map fst d.

Definition repr_val (v : pyval) : pystr :=
  match v with
  | PyInt n => str_of_int n
  | PyStr s => repr_str s
  end.

(** [repr] of a list, given the [repr] of its items. *)
Definition repr_list (items : list pystr) : pystr :=
  lit "[" ++ str_join (lit ", ") items ++ lit "]".

(** [repr] of a [dict] with [str] keys. *)
Definition repr_dict (d : pydict pyval) : pystr :=
  lit "{" ++
  str_join (lit ", ")
    (map (fun kv => repr_str (fst kv) ++ lit ": " ++ repr_val (snd kv)) d) ++
  lit "}".

(** ** Effects: log records, exceptions, the state of the framework *)

Inductive loglevel : Type := DEBUG | INFO.

Record logrecord : Type := LogRecord { lr_level : loglevel; lr_message : pystr }.

Section Effects.

(** The state of the external framework and the errors it raises. *)
Variables (World ExtError : Type).

Inductive pyexn : Type :=
| KeyError (key : pystr)
| ValueError (max_str_digits : nat)
| External (e : ExtError).

Record pystate : Type := PyState { st_log : list logrecord; st_world : World }.

(** A computation reads and writes the state and returns or raises. *)
Definition Py (A : Type) : Type := pystate -> (pyexn + A) * pystate.

Definition ret {A} (a : A) : Py A := fun st => (inr a, st).

Definition raise {A} (e : pyexn) : Py A := fun st => (inl e, st).

Definition bind {A B} (m : Py A) (k : A -> Py B) : Py B :=
  fun st =>
    match m st with
    | (inl e, st') => (inl e, st')
    | (inr a, st') => k a st'
    end.

(** [logger.info(msg)] and [logger.debug(msg)]: the root logger is
    configured at level DEBUG, so both levels are emitted. *)
Definition logger (lvl : loglevel) (msg : pystr) : Py unit :=
  fun st => (inr tt, PyState (st_log st ++ [LogRecord lvl msg]) (st_world st)).

(** [d[key]]: raises [KeyError] when the key is absent. *)
Fixpoint dict_getitem {V} (key : pystr) (d : pydict V) : Py V :=
  match d with
  | [] => raise (KeyError key)
  | (k, v) :: rest => if pystr_eqb key k then ret v else dict_getitem key rest
  end.

End Effects.

Arguments KeyError {ExtError} key.
Arguments ValueError {ExtError} max_str_digits.
Arguments External {ExtError} e.
Arguments PyState {World} st_log st_world.
Arguments st_log {World} _.
Arguments st_world {World} _.
Arguments ret {World ExtError A} a.
Arguments raise {World ExtError A} e.
Arguments bind {World ExtError A B} m k.
Arguments logger {World ExtError} lvl msg.
Arguments dict_getitem {World ExtError V} key d.

Declare Scope py_scope.
Delimit Scope py_scope with py.
Notation "x <- m ;; k" := (bind m (fun x => k))
  (at level 61, m at next level, right associativity) : py_scope.
Notation "m ;; k" := (bind m (fun _ => k))
  (at level 61, right associativity) : py_scope.

(** CPython checks the length of an int-to-str conversion only for texts
    longer than this many characters. *)
Definition int_str_digits_threshold : nat := 640.

(** The default of [sys.get_int_max_str_digits()]. *)
Definition default_int_max_str_digits : nat := 4300.

(** Whether the interpreter refuses to convert [n] to a string:
    [max_str_digits] is [sys.get_int_max_str_digits()], 0 for no limit, and
    the digits are counted without the minus sign. *)
Definition int_str_too_long (max_str_digits : nat) (n : Z) : bool :=
  let strlen := List.length (str_of_int n) in
  (int_str_digits_threshold <? strlen)%nat &&
  ((0 <? max_str_digits)%nat &&
   (max_str_digits <? strlen - (if (n <? 0)%Z then 1 else 0))%nat).

(** An [int] in an f-string, [{n}]: its decimal text, or [ValueError] when
    the text exceeds the limit on int-to-str conversions. *)
Definition format_int {World ExtError} (max_str_digits : nat) (n : Z)
    : Py World ExtError pystr :=
  if int_str_too_long max_str_digits n
  then raise (ValueError max_str_digits)
  else ret (str_of_int n).

(** [range(start, stop)] *)
Definition py_range (start stop : Z) : list Z :=
  map (fun i => start + Z.of_nat i) (seq 0 (Z.to_nat (stop - start))).

(** [s.lower()].  CPython lowers an all-ASCII string character by character
    and sends every other string through the Unicode case tables, which are
    not part of this repository: [unicode_lower] stands for them. *)
Definition str_lower (unicode_lower : pystr -> pystr) (s : pystr) : pystr :=
  if forallb is_ascii s then map ascii_lower s else unicode_lower s.

(** ** The module *)

Definition weather_record (temperature : Z) (conditions : pystr)
    (humidity wind_speed feels_like : Z) : pydict pyval :=
  [ (lit "temperature", PyInt temperature);
    (lit "conditions", PyStr conditions);
    (lit "humidity", PyInt humidity);
    (lit "wind_speed", PyInt wind_speed);
    (lit "feels_like", PyInt feels_like) ].

(** The table [get_weather] builds on entry. *)
Definition weather_data : pydict (pydict pyval) :=
  [ (lit "seattle", weather_record 11 (lit "rainy") 75 12 10);
    (lit "san francisco", weather_record 14 (lit "foggy") 85 8 13);
    (lit "new york city", weather_record 18 (lit "sunny") 60 10 17);
    (lit "miami", weather_record 29 (lit "hot and humid") 90 5 32);
    (lit "chicago", weather_record 9 (lit "windy") 65 20 6) ].

(** The record [get_weather] builds when the table has no entry. *)
Definition default_weather : pydict pyval :=
  weather_record 21 (lit "partly cloudy") 50 10 20.

Section WeatherAgent.

Variable unicode_lower : pystr -> pystr.

(** [sys.get_int_max_str_digits()] of the running interpreter. *)
Variable int_max_str_digits : nat.
Variables (World ExtError : Type).

Local Open Scope py_scope.

Definition get_weather (location : pystr) : Py World ExtError (pydict pyval) :=
  logger INFO (lit "[get_weather] Called with location: " ++ location) ;;
  logger DEBUG (lit "[get_weather] Location type: " ++ lit "<class 'str'>") ;;
  let location_lower := str_lower unicode_lower location in
  logger DEBUG (lit "[get_weather] Normalized location: " ++ location_lower) ;;
  logger DEBUG (lit "[get_weather] Available locations: " ++
                repr_list (map repr_str (dict_keys weather_data))) ;;
  if dict_contains location_lower weather_data then
    result <- dict_getitem location_lower weather_data ;;
    logger INFO (lit "[get_weather] Found weather data for " ++ location_lower ++
                 lit ": " ++ repr_dict result) ;;
    ret result
  else
    let result := default_weather in
    logger INFO (lit "[get_weather] Using default weather data for " ++
                 location_lower ++ lit ": " ++ repr_dict result) ;;
    ret result.

(** One pass of the loop body: [forecast.append(f"Day {day}: ...")]. *)
Definition forecast_append (forecast : list pystr) (day : Z) : list pystr :=
  forecast ++
  [lit "Day " ++ str_of_int day ++ lit ": Partly cloudy, " ++
   str_of_int (60 + day * 2) ++ degree_sign ++ lit "F"].

(** The list [forecast] when the loop has run:
    [for day in range(1, min(days, 7) + 1): forecast.append(...)]. *)
Definition forecast_lines (days : Z) : list pystr :=
  fold_left forecast_append (py_range 1 (Z.min days 7 + 1)) [].

Definition get_forecast (location : pystr) (days : Z) : Py World ExtError pystr :=
  days_text <- format_int int_max_str_digits days ;;
  logger INFO (lit "[get_forecast] Called with location: " ++ location ++
               lit ", days: " ++ days_text) ;;
  logger DEBUG (lit "[get_forecast] Location type: " ++ lit "<class 'str'>" ++
                lit ", days type: " ++ lit "<class 'int'>") ;;
  let forecast := forecast_lines days in
  days_text <- format_int int_max_str_digits days ;;
  let result := days_text ++ lit "-day forecast for " ++ location ++
                lit ":" ++ newline ++ str_join newline forecast in
  logger INFO (lit "[get_forecast] Generated forecast: " ++ result) ;;
  ret result.

(** *** The factory and the framework it calls *)

(** What a tool does when it is invoked. *)
Inductive callable : Type :=
| LocationTool (f : pystr -> Py World ExtError (pydict pyval))
| LocationDaysTool (f : pystr -> Z -> Py World ExtError pystr).

(** The framework's side: chat clients, the objects [@ai_function] makes,
    agents, and how the first two print. *)
Variables (Client AIFunction Agent : Type).
Variable ai_function : callable -> AIFunction.
Variable repr_tool : AIFunction -> pystr.
Variable repr_client_type : Client -> pystr.

(** The keyword arguments of [ChatAgent(...)]. *)
Record ChatAgentArgs : Type := MkChatAgentArgs {
  arg_name : pystr;
  arg_instructions : pystr;
  arg_chat_client : Client;
  arg_tools : list AIFunction
}.

(** The constructor: it may read and change the framework's state, and
    it returns an agent or raises. *)
Variable ChatAgent : ChatAgentArgs -> World -> (ExtError + Agent) * World.

Definition call_ChatAgent (args : ChatAgentArgs) : Py World ExtError Agent :=
  fun st =>
    match ChatAgent args (st_world st) with
    | (inl e, w) => (inl (External e), PyState (st_log st) w)
    | (inr a, w) => (inr a, PyState (st_log st) w)
    end.

(** The module-level names after decoration. *)
Definition get_weather_tool : AIFunction := ai_function (LocationTool get_weather).
Definition get_forecast_tool : AIFunction := ai_function (LocationDaysTool get_forecast).

Definition weather_agent_instructions : pystr :=
  lit "You are a helpful weather assistant. " ++
  lit "Use the get_weather and get_forecast functions to help users with weather information. " ++
  lit "Always provide friendly and informative responses.".

Definition weather_agent (chat_client : Client) : Py World ExtError Agent :=
  logger INFO (lit "[weather_agent] Creating weather agent") ;;
  logger DEBUG (lit "[weather_agent] Chat client type: " ++ repr_client_type chat_client) ;;
  logger DEBUG (lit "[weather_agent] Available tools: " ++
                repr_list (map repr_tool [get_weather_tool; get_forecast_tool])) ;;
  agent <- call_ChatAgent
             (MkChatAgentArgs (lit "weather_agent")
                              weather_agent_instructions
                              chat_client
                              [get_weather_tool; get_forecast_tool]) ;;
  logger INFO (lit "[weather_agent] Weather agent created successfully") ;;
  ret agent.

End WeatherAgent.


Arguments LocationTool {World ExtError} f.
Arguments LocationDaysTool {World ExtError} f.
Arguments get_weather_tool unicode_lower {World ExtError AIFunction} ai_function.
Arguments get_forecast_tool int_max_str_digits {World ExtError AIFunction} ai_function.
Arguments weather_agent unicode_lower int_max_str_digits
  {World ExtError Client AIFunction Agent}
  ai_function repr_tool repr_client_type ChatAgent chat_client _.
Arguments MkChatAgentArgs {Client AIFunction} _ _ _ _.
Arguments arg_name {Client AIFunction} _.
Arguments arg_instructions {Client AIFunction} _.
Arguments arg_chat_client {Client AIFunction} _.
Arguments arg_tools {Client AIFunction} _.

(** ** The framework, as the specification describes it *)

Section Framework.

Variables (World ExtError Client AIFunction : Type).

(** Modelled from the spec: the agent handle of the framework, whose class
    [ChatAgent] is not among the sources.  The specification describes it as
    the object representing a configured agent: it records the name, the
    instruction string, the client reference and the registered tools. *)
Record AgentHandle : Type := MkAgentHandle {
  agent_name : pystr;
  agent_instructions : pystr;
  agent_chat_client : Client;
  agent_tools : list AIFunction
}.

(** Modelled from the spec: the constructor [ChatAgent(...)], not among the
    sources.  It raises what [client_error] says for a client it refuses
    (the specification's example of a failure is an invalid client object)
    and otherwise returns a handle recording its four arguments; it leaves
    the framework's state alone. *)
Definition ChatAgent_model (client_error : Client -> option ExtError)
    (args : ChatAgentArgs Client AIFunction) (w : World)
    : (ExtError + AgentHandle) * World :=
  match client_error (arg_chat_client args) with
  | Some e => (inl e, w)
  | None => (inr (MkAgentHandle (arg_name args) (arg_instructions args)
                                (arg_chat_client args) (arg_tools args)), w)
  end.

End Framework.

Arguments ChatAgent_model {World ExtError Client AIFunction} client_error args w.
Arguments MkAgentHandle {Client AIFunction} _ _ _ _.
Arguments agent_name {Client AIFunction} _.
Arguments agent_instructions {Client AIFunction} _.
Arguments agent_chat_client {Client AIFunction} _.
Arguments agent_tools {Client AIFunction} _.

(** ** Vocabulary of the specification *)

(** A casing of a name: [mask] says, letter by letter, which ones are
    written in upper case; letters beyond the end of the mask stay as they
    are. *)
Fixpoint apply_casing (mask : list bool) (name : pystr) : pystr :=
  match name, mask with
  | [], _ => []
  | c :: rest, [] => c :: rest
  | c :: rest, b :: mask' =>
      (if b then ascii_upper c else c) :: apply_casing mask' rest
  end.

(** The five known locations. *)
Definition known_locations : list pystr :=
  [lit "seattle"; lit "san francisco"; lit "new york city"; lit "miami"; lit "chicago"].

(** The characters [str.strip] removes among the ASCII ones: space, tab,
    line feed, vertical tab, form feed, carriage return. *)
Definition is_ascii_space (c : N) : bool :=
  ((c =? 32) || ((9 <=? c) && (c <=? 13)))%N.

(** Looking a key up without effects. *)
Fixpoint dict_get {V} (key : pystr) (d : pydict V) : option V :=
  match d with
  | [] => None
  | (k, v) :: rest => if pystr_eqb key k then Some v else dict_get key rest
  end.

(** The record of a normalized location: the table's entry, or the default. *)
Definition weather_of (location_lower : pystr) : pydict pyval :=
  match dict_get location_lower weather_data with
  | Some record => record
  | None => default_weather
  end.

Definition has_int (key : pystr) (d : pydict pyval) : bool :=
  match dict_get key d with Some (PyInt _) => true | _ => false end.

Definition has_str (key : pystr) (d : pydict pyval) : bool :=
  match dict_get key d with Some (PyStr _) => true | _ => false end.

(** The shape of a WeatherRecord: five attributes, four integers and a
    string. *)
Definition is_weather_record (d : pydict pyval) : bool :=
  (List.length d =? 5)%nat &&
  has_int (lit "temperature") d &&
  has_str (lit "conditions") d &&
  has_int (lit "humidity") d &&
  has_int (lit "wind_speed") d &&
  has_int (lit "feels_like") d.

(** The header of a forecast, in the specification's words:
    [{days}-day forecast for {location}:]. *)
Definition spec_header (days : Z) (location : pystr) : pystr :=
  str_of_int days ++ lit "-day forecast for " ++ location ++ lit ":".

(** The line of day [n], in the specification's words:
    [Day {n}: Partly cloudy, {60 + 2n}] followed by the degree sign and F. *)
Definition spec_day_line (n : Z) : pystr :=
  lit "Day " ++ str_of_int n ++ lit ": Partly cloudy, " ++
  str_of_int (60 + 2 * n) ++ degree_sign ++ lit "F".

(** The days of a forecast, in the specification's words: 1 to min(days, 7). *)
Definition spec_days (days : Z) : list Z :=
  map Z.of_nat (seq 1 (Z.to_nat (Z.min days 7))).

(** An earlier call of one of the two tools. *)
Inductive tool_call : Type :=
| CallGetWeather (location : pystr)
| CallGetForecast (location : pystr) (days : Z).

Section History.

Variable unicode_lower : pystr -> pystr.
Variable int_max_str_digits : nat.
Variables (World ExtError : Type).

(** The state a call leaves behind. *)
Definition run_call (c : tool_call) (st : pystate World) : pystate World :=
  match c with
  | CallGetWeather location =>
      snd (get_weather unicode_lower World ExtError location st)
  | CallGetForecast location days =>
      snd (get_forecast int_max_str_digits World ExtError location days st)
  end.

(** The state after a sequence of calls, the first one first. *)
Definition run_calls (calls : list tool_call) (st : pystate World) : pystate World :=
  fold_left (fun s c => run_call c s) calls st.

End History.

(** What the caller of [weather_agent] sees of the constructor's outcome. *)
Definition outcome {ExtError Agent} (r : ExtError + Agent) : pyexn ExtError + Agent :=
  match r with
  | inl e => inl (External e)
  | inr a => inr a
  end.

(** ** Reading what the tools produce *)

(** [text.split(chr(10))]: the pieces between the line feeds of a text. *)
Fixpoint split_lines (text : pystr) : list pystr :=
  match text with
  | [] => [[]]
  | c :: rest =>
      if (c =? 10)%N then [] :: split_lines rest
      else match split_lines rest with
           | piece :: pieces => (c :: piece) :: pieces
           | [] => [[c]]
           end
  end.

(** The number of log records a call emits: five calls of the logger on
    every path of [get_weather]; three in [get_forecast], none of them
    reached when the first f-string refuses the number of days. *)
Definition records_of_call (max_str_digits : nat) (c : tool_call) : nat :=
  match c with
  | CallGetWeather _ => 5
  | CallGetForecast _ days =>
      if int_str_too_long max_str_digits days then 0 else 3
  end.

(** A fragment of the Unicode case tables: U+212A KELVIN SIGN lowers to
    the letter k; the other characters are lowered as ASCII ones. *)
Definition kelvin_unicode_lower (s : pystr) : pystr :=
  map (fun c => if (c =? 8490)%N then 107%N else ascii_lower c) s.

(** ** Stand-ins for running the module *)

(** A stand-in for the Unicode tables, for runs on ASCII strings, which
    never reach them. *)
Definition no_unicode_lower (s : pystr) : pystr := s.

(** The state before anything was logged. *)
Definition fresh {World} (w : World) : pystate World := PyState [] w.

(** A framework whose tools are the callables themselves, whose state
    counts the constructor's calls, and whose errors are messages. *)
Definition stub_ai_function (f : callable nat pystr) : callable nat pystr := f.

Definition stub_repr_tool (f : callable nat pystr) : pystr :=
  match f with
  | LocationTool _ => lit "<get_weather>"
  | LocationDaysTool _ => lit "<get_forecast>"
  end.

Definition stub_repr_client_type (c : unit) : pystr := lit "<class 'StubClient'>".

(** A constructor that refuses every client. *)
Definition refusing_ChatAgent
    (args : ChatAgentArgs unit (callable nat pystr)) (calls : nat)
    : (pystr + unit) * nat :=
  (inl (lit "invalid client"), S calls).

(** * Verification *)

(** ** Strings and dictionaries *)

Lemma pystr_eqb_eq (a b : pystr) : pystr_eqb a b = true <-> a = b.
Proof.
  unfold pystr_eqb. destruct (list_eq_dec N.eq_dec a b) as [e | n].
  - split; intros _; [exact e | reflexivity].
  - split; [discriminate | intros e; contradiction].
Qed.

Lemma pystr_eqb_neq (a b : pystr) : a <> b -> pystr_eqb a b = false.
Proof.
  intros n. destruct (pystr_eqb a b) eqn:e; [| reflexivity].
  apply pystr_eqb_eq in e. contradiction.
Qed.

(** A key the dictionary holds is found by [d[key]], which then leaves the
    state alone. *)
Lemma dict_getitem_contains {World ExtError V} (key : pystr) (d : pydict V)
    (st : pystate World) :
  dict_contains key d = true ->
  exists v, dict_get key d = Some v /\
            @dict_getitem World ExtError V key d st = (inr v, st).
Proof.
  induction d as [| [k v] rest IH]; simpl.
  - discriminate.
  - destruct (pystr_eqb key k).
    + intros _. exists v. split; reflexivity.
    + simpl. exact IH.
Qed.

Lemma dict_contains_false_get {V} (key : pystr) (d : pydict V) :
  dict_contains key d = false -> dict_get key d = None.
Proof.
  induction d as [| [k v] rest IH]; simpl.
  - reflexivity.
  - destruct (pystr_eqb key k); simpl; [discriminate | exact IH].
Qed.

Lemma dict_get_In {V} (key : pystr) (d : pydict V) (v : V) :
  dict_get key d = Some v -> In (key, v) d.
Proof.
  induction d as [| [k w] rest IH]; simpl.
  - discriminate.
  - destruct (pystr_eqb key k) eqn:e.
    + intros [= ->]. apply pystr_eqb_eq in e. subst k. left. reflexivity.
    + intros h. right. exact (IH h).
Qed.

Lemma dict_get_not_key {V} (key : pystr) (d : pydict V) :
  ~ In key (dict_keys d) -> dict_get key d = None.
Proof.
  induction d as [| [k w] rest IH]; simpl.
  - reflexivity.
  - intros h. rewrite pystr_eqb_neq.
    + apply IH. intros i. apply h. right. exact i.
    + intros e. apply h. left. symmetry. exact e.
Qed.

(** ** Lower case *)

Lemma ascii_upper_lower (c : N) :
  is_ascii c = true ->
  is_ascii (ascii_upper c) = true /\ ascii_lower (ascii_upper c) = ascii_lower c.
Proof.
  unfold is_ascii, ascii_upper, ascii_lower. intros small.
  apply N.ltb_lt in small.
  destruct (N.leb_spec 97 c); destruct (N.leb_spec c 122); cbn [andb];
    destruct (N.leb_spec 65 c); destruct (N.leb_spec c 90); cbn [andb];
    try lia.
  all: split; [apply N.ltb_lt; lia |].
  all: repeat match goal with
              | |- context [(?a <=? ?b)%N] => destruct (N.leb_spec a b)
              end; cbn [andb]; lia.
Qed.

(** Whatever the casing of an ASCII name, it is ASCII and lowers to what the
    name lowers to. *)
Lemma apply_casing_lower (mask : list bool) (name : pystr) :
  forallb is_ascii name = true ->
  forallb is_ascii (apply_casing mask name) = true /\
  map ascii_lower (apply_casing mask name) = map ascii_lower name.
Proof.
  revert mask. induction name as [| c rest IH]; intros mask ascii.
  - destruct mask; split; reflexivity.
  - simpl in ascii. apply andb_true_iff in ascii. destruct ascii as [hc hrest].
    destruct mask as [| b mask'].
    + split; [simpl; rewrite hc, hrest; reflexivity | reflexivity].
    + destruct (IH mask' hrest) as [IHa IHl].
      destruct (ascii_upper_lower c hc) as [ua ul].
      simpl. destruct b.
      * rewrite ua, IHa, ul, IHl. split; reflexivity.
      * rewrite hc, IHa, IHl. split; reflexivity.
Qed.

Lemma str_lower_casing (unicode_lower : pystr -> pystr) (mask : list bool)
    (name : pystr) :
  forallb is_ascii name = true ->
  str_lower unicode_lower (apply_casing mask name) = map ascii_lower name.
Proof.
  intros ascii. destruct (apply_casing_lower mask name ascii) as [ha hl].
  unfold str_lower. rewrite ha. exact hl.
Qed.

(** An all-ASCII string with no upper-case letter is its own lower case. *)
Lemma str_lower_fixed (unicode_lower : pystr -> pystr) (s : pystr) :
  forallb (fun c => is_ascii c && (ascii_lower c =? c)%N) s = true ->
  str_lower unicode_lower s = s.
Proof.
  intros fixed. unfold str_lower.
  assert (forallb is_ascii s = true /\ map ascii_lower s = s) as [ha hl].
  { induction s as [| c rest IH]; [split; reflexivity |].
    simpl in fixed. apply andb_true_iff in fixed. destruct fixed as [hc hrest].
    apply andb_true_iff in hc. destruct hc as [hc1 hc2]. apply N.eqb_eq in hc2.
    destruct (IH hrest) as [IHa IHl].
    simpl. rewrite hc1, IHa, hc2, IHl. split; reflexivity. }
  rewrite ha. exact hl.
Qed.

(** ** The loop of [get_forecast] *)

Lemma fold_forecast_append (days : list Z) (acc : list pystr) :
  fold_left forecast_append days acc = acc ++ map spec_day_line days.
Proof.
  revert acc. induction days as [| d rest IH]; intros acc; simpl.
  - rewrite app_nil_r. reflexivity.
  - rewrite IH. unfold forecast_append, spec_day_line.
    rewrite <- app_assoc. rewrite (Z.mul_comm d 2). reflexivity.
Qed.

Lemma py_range_spec_days (days : Z) :
  py_range 1 (Z.min days 7 + 1) = spec_days days.
Proof.
  unfold py_range, spec_days.
  replace (Z.min days 7 + 1 - 1) with (Z.min days 7) by lia.
  rewrite <- seq_shift, map_map. apply map_ext.
  intros i. lia.
Qed.

Lemma forecast_lines_spec (days : Z) :
  forecast_lines days = map spec_day_line (spec_days days).
Proof.
  unfold forecast_lines. rewrite fold_forecast_append, py_range_spec_days.
  reflexivity.
Qed.

Lemma spec_days_In (days n : Z) :
  In n (spec_days days) <-> 1 <= n <= Z.min days 7.
Proof.
  unfold spec_days. rewrite in_map_iff. split.
  - intros [i [e h]]. apply in_seq in h. lia.
  - intros h. exists (Z.to_nat n). split; [lia |]. apply in_seq. lia.
Qed.

Lemma spec_days_nonpositive (days : Z) : days <= 0 -> spec_days days = [].
Proof.
  intros h. unfold spec_days.
  replace (Z.to_nat (Z.min days 7)) with 0%nat by lia. reflexivity.
Qed.

Lemma str_join_cons (sep p : pystr) (rest : list pystr) :
  rest <> [] -> str_join sep (p :: rest) = p ++ sep ++ str_join sep rest.
Proof.
  destruct rest as [| q rest']; [intros h; contradiction | reflexivity].
Qed.

(** No forecast line holds a line feed. *)
Lemma spec_day_line_one_line (days n : Z) :
  In n (spec_days days) -> ~ In 10%N (spec_day_line n).
Proof.
  intros h. apply spec_days_In in h.
  assert (n = 1 \/ n = 2 \/ n = 3 \/ n = 4 \/ n = 5 \/ n = 6 \/ n = 7) as cases by lia.
  intros i.
  repeat (destruct cases as [-> | cases]; [vm_compute in i; intuition discriminate |]).
  subst n. vm_compute in i. intuition discriminate.
Qed.

Section Tools.

Variable unicode_lower : pystr -> pystr.
Variable int_max_str_digits : nat.
Variables (World ExtError : Type).

(** ** What one call of [get_weather] does *)

(** The call returns the record of the lower-cased location, appends its
    log records and leaves the rest of the state alone. *)
Lemma get_weather_run (location : pystr) (st : pystate World) :
  exists entries,
    get_weather unicode_lower World ExtError location st =
    (inr (weather_of (str_lower unicode_lower location)),
     PyState (st_log st ++ entries) (st_world st)).
Proof.
  unfold get_weather, bind, logger. cbn [st_log st_world].
  destruct (dict_contains (str_lower unicode_lower location) weather_data) eqn:hit.
  - match goal with
    | |- context [dict_getitem ?k ?d ?s] =>
        destruct (@dict_getitem_contains World ExtError _ k d s hit) as [v [hv hrun]]
    end.
    rewrite hrun. unfold weather_of. rewrite hv. unfold ret. cbn [st_log st_world].
    eexists. rewrite <- !app_assoc. reflexivity.
  - unfold weather_of. rewrite (dict_contains_false_get _ _ hit).
    unfold ret. cbn [st_log st_world].
    eexists. rewrite <- !app_assoc. reflexivity.
Qed.

Lemma get_weather_result (location : pystr) (st : pystate World) :
  fst (get_weather unicode_lower World ExtError location st) =
  inr (weather_of (str_lower unicode_lower location)).
Proof.
  destruct (get_weather_run location st) as [entries run]. rewrite run. reflexivity.
Qed.

(** ** What one call of [get_forecast] does *)

(** A number of days whose decimal text the interpreter agrees to produce:
    the call returns the text and appends its three log records. *)
Lemma get_forecast_run (location : pystr) (days : Z) (st : pystate World) :
  int_str_too_long int_max_str_digits days = false ->
  exists entries,
    get_forecast int_max_str_digits World ExtError location days st =
    (inr (str_of_int days ++ lit "-day forecast for " ++ location ++ lit ":" ++
          newline ++ str_join newline (forecast_lines days)),
     PyState (st_log st ++ entries) (st_world st)) /\
    List.length entries = 3%nat.
Proof.
  intros short.
  unfold get_forecast, bind, logger, ret, format_int. rewrite short.
  unfold ret. cbn [st_log st_world].
  eexists. rewrite <- !app_assoc. split; reflexivity.
Qed.

(** A number of days with too many digits: the first f-string raises,
    before anything is logged. *)
Lemma get_forecast_raise (location : pystr) (days : Z) (st : pystate World) :
  int_str_too_long int_max_str_digits days = true ->
  get_forecast int_max_str_digits World ExtError location days st =
  (inl (ValueError int_max_str_digits), st).
Proof.
  intros long. unfold get_forecast, bind, format_int. rewrite long. reflexivity.
Qed.

Lemma get_forecast_result (location : pystr) (days : Z) (st : pystate World) :
  int_str_too_long int_max_str_digits days = false ->
  fst (get_forecast int_max_str_digits World ExtError location days st) =
  inr (str_of_int days ++ lit "-day forecast for " ++ location ++ lit ":" ++
       newline ++ str_join newline (forecast_lines days)).
Proof.
  intros short.
  destruct (get_forecast_run location days st short) as [entries [run _]].
  rewrite run. reflexivity.
Qed.

(** Without a limit, and for every text of at most 640 characters, the
    conversion is never refused. *)
Lemma int_str_no_limit (n : Z) : int_str_too_long 0 n = false.
Proof. unfold int_str_too_long. apply andb_false_r. Qed.

Lemma int_str_below_threshold (max_str_digits : nat) (n : Z) :
  (List.length (str_of_int n) <= int_str_digits_threshold)%nat ->
  int_str_too_long max_str_digits n = false.
Proof.
  intros small. unfold int_str_too_long.
  replace (int_str_digits_threshold <? List.length (str_of_int n))%nat with false.
  - reflexivity.
  - symmetry. apply Nat.ltb_ge. exact small.
Qed.

(** ** The weather lookup *)

Lemma weather_keys : dict_keys weather_data = known_locations.
Proof. reflexivity. Qed.

Lemma weather_of_unknown (key : pystr) :
  ~ In key known_locations -> weather_of key = default_weather.
Proof.
  intros h. unfold weather_of. rewrite dict_get_not_key; [reflexivity |].
  rewrite weather_keys. exact h.
Qed.

(** C1.  Each of the five known locations, in every casing of its name
    (the mask picks the letters written in upper case), gets exactly the
    record the table holds for it. *)
Theorem get_weather_known_location (mask : list bool) (st : pystate World) :
  fst (get_weather unicode_lower World ExtError
         (apply_casing mask (lit "seattle")) st)
    = inr (weather_record 11 (lit "rainy") 75 12 10) /\
  fst (get_weather unicode_lower World ExtError
         (apply_casing mask (lit "san francisco")) st)
    = inr (weather_record 14 (lit "foggy") 85 8 13) /\
  fst (get_weather unicode_lower World ExtError
         (apply_casing mask (lit "new york city")) st)
    = inr (weather_record 18 (lit "sunny") 60 10 17) /\
  fst (get_weather unicode_lower World ExtError
         (apply_casing mask (lit "miami")) st)
    = inr (weather_record 29 (lit "hot and humid") 90 5 32) /\
  fst (get_weather unicode_lower World ExtError
         (apply_casing mask (lit "chicago")) st)
    = inr (weather_record 9 (lit "windy") 65 20 6).
Proof.
  repeat split; rewrite get_weather_result;
    rewrite str_lower_casing by reflexivity; reflexivity.
Qed.

(** C2.  [get_weather] returns a record for every string, never raising;
    when the lower-cased string is none of the five keys, as for Tokyo and
    for the empty string, the record is the default one. *)
Theorem get_weather_unknown_location (location : pystr) (st : pystate World) :
  (exists record,
     fst (get_weather unicode_lower World ExtError location st) = inr record) /\
  (~ In (str_lower unicode_lower location) known_locations ->
   fst (get_weather unicode_lower World ExtError location st)
     = inr (weather_record 21 (lit "partly cloudy") 50 10 20)) /\
  fst (get_weather unicode_lower World ExtError (lit "Tokyo") st)
    = inr (weather_record 21 (lit "partly cloudy") 50 10 20) /\
  fst (get_weather unicode_lower World ExtError [] st)
    = inr (weather_record 21 (lit "partly cloudy") 50 10 20).
Proof.
  split; [| split; [| split]].
  - eexists. apply get_weather_result.
  - intros unknown. rewrite get_weather_result.
    rewrite (weather_of_unknown _ unknown). reflexivity.
  - rewrite get_weather_result. reflexivity.
  - rewrite get_weather_result. reflexivity.
Qed.

(** ** The forecast *)

(** C3 (amended).  For [days >= 1] whose decimal text the interpreter
    agrees to produce (at most [sys.get_int_max_str_digits()] digits, 4300
    by default), the text is the header, carrying the requested number of
    days, then one line for each day from 1 to min(days, 7) in the form
    Day n: Partly cloudy, 60 + 2n degrees F, all joined by line feeds;
    there are min(days, 7) such lines and none of them holds a line
    feed. *)
Theorem get_forecast_days (location : pystr) (days : Z) (st : pystate World) :
  1 <= days ->
  int_str_too_long int_max_str_digits days = false ->
  fst (get_forecast int_max_str_digits World ExtError location days st)
    = inr (str_join newline
             (spec_header days location :: map spec_day_line (spec_days days))) /\
  List.length (map spec_day_line (spec_days days)) = Z.to_nat (Z.min days 7) /\
  (forall n, In n (spec_days days) <-> 1 <= n <= Z.min days 7) /\
  Forall (fun line => ~ In 10%N line) (map spec_day_line (spec_days days)).
Proof.
  intros positive short. split; [| split; [| split]].
  - rewrite (get_forecast_result _ _ _ short), forecast_lines_spec, str_join_cons.
    + unfold spec_header. rewrite <- !app_assoc. reflexivity.
    + intros empty. apply map_eq_nil in empty.
      assert (In 1 (spec_days days)) as one by (apply spec_days_In; lia).
      rewrite empty in one. exact one.
  - rewrite length_map. unfold spec_days. rewrite length_map, length_seq.
    reflexivity.
  - intros n. apply spec_days_In.
  - apply Forall_forall. intros line inl. apply in_map_iff in inl.
    destruct inl as [n [<- inn]]. exact (spec_day_line_one_line days n inn).
Qed.

(** C4.  The three-day forecast for Paris, character for character. *)
Theorem get_forecast_paris_3 (st : pystate World) :
  fst (get_forecast int_max_str_digits World ExtError (lit "Paris") 3 st)
    = inr (lit "3-day forecast for Paris:" ++ newline ++
           lit "Day 1: Partly cloudy, 62" ++ degree_sign ++ lit "F" ++ newline ++
           lit "Day 2: Partly cloudy, 64" ++ degree_sign ++ lit "F" ++ newline ++
           lit "Day 3: Partly cloudy, 66" ++ degree_sign ++ lit "F").
Proof.
  rewrite get_forecast_result by reflexivity. reflexivity.
Qed.

(** C5 (amended).  [get_forecast] returns a text for every number of days
    whose decimal text the interpreter agrees to produce, and for the
    others it raises [ValueError] before it logs anything; for such
    [days <= 0] the loop appends no line and the text is the header line
    alone, ended by its line feed, with no Day line after it. *)
Theorem get_forecast_nonpositive (location : pystr) (days : Z) (st : pystate World) :
  (int_str_too_long int_max_str_digits days = false ->
   exists text,
     fst (get_forecast int_max_str_digits World ExtError location days st)
       = inr text) /\
  (int_str_too_long int_max_str_digits days = true ->
   get_forecast int_max_str_digits World ExtError location days st
     = (inl (ValueError int_max_str_digits), st)) /\
  (days <= 0 ->
   int_str_too_long int_max_str_digits days = false ->
   forecast_lines days = [] /\
   fst (get_forecast int_max_str_digits World ExtError location days st)
     = inr (spec_header days location ++ newline)).
Proof.
  split; [| split].
  - intros short. eexists. apply (get_forecast_result _ _ _ short).
  - apply get_forecast_raise.
  - intros nonpositive short.
    assert (forecast_lines days = []) as none.
    { rewrite forecast_lines_spec, (spec_days_nonpositive days nonpositive).
      reflexivity. }
    split; [exact none |].
    rewrite (get_forecast_result _ _ _ short), none.
    unfold spec_header. simpl str_join.
    rewrite app_nil_r, <- !app_assoc. reflexivity.
Qed.

(** ** Shape, purity, normalization *)

Lemma weather_data_shape :
  Forall (fun entry => is_weather_record (snd entry) = true) weather_data.
Proof. repeat (constructor; [reflexivity |]). constructor. Qed.

Lemma weather_of_shape (key : pystr) : is_weather_record (weather_of key) = true.
Proof.
  unfold weather_of. destruct (dict_get key weather_data) as [record |] eqn:found.
  - apply dict_get_In in found.
    exact (proj1 (Forall_forall _ _) weather_data_shape (key, record) found).
  - reflexivity.
Qed.

(** C8.  Every entry of the table, the default record, and so the record
    [get_weather] returns for any string, has exactly the five attributes,
    four integers and a string; and whatever calls came before, the table a
    call consults is the literal one: the answer is the same. *)
Theorem weather_record_shape (location : pystr) (st : pystate World) :
  Forall (fun entry => is_weather_record (snd entry) = true) weather_data /\
  is_weather_record default_weather = true /\
  (exists record,
     fst (get_weather unicode_lower World ExtError location st) = inr record /\
     is_weather_record record = true) /\
  (forall calls : list tool_call,
     fst (get_weather unicode_lower World ExtError location
            (run_calls unicode_lower int_max_str_digits World ExtError calls st))
     = inr (weather_of (str_lower unicode_lower location))).
Proof.
  split; [exact weather_data_shape | split; [reflexivity | split]].
  - exists (weather_of (str_lower unicode_lower location)).
    split; [apply get_weather_result | apply weather_of_shape].
  - intros calls. apply get_weather_result.
Qed.


Lemma get_forecast_appends (location : pystr) (days : Z) (st : pystate World) :
  exists entries,
    snd (get_forecast int_max_str_digits World ExtError location days st)
      = PyState (st_log st ++ entries) (st_world st) /\
    List.length entries
      = if int_str_too_long int_max_str_digits days then 0%nat else 3%nat.
Proof.
  destruct (int_str_too_long int_max_str_digits days) eqn:long.
  - rewrite (get_forecast_raise _ _ _ long). exists [].
    rewrite app_nil_r. destruct st. split; reflexivity.
  - destruct (get_forecast_run location days st long) as [entries [run count]].
    exists entries. rewrite run. split; [reflexivity | exact count].
Qed.


Lemma space_lower_fixed (c : N) :
  is_ascii_space c = true -> is_ascii c && (ascii_lower c =? c)%N = true.
Proof.
  unfold is_ascii_space, is_ascii, ascii_lower. intros space.
  assert (c = 32 \/ 9 <= c <= 13)%N as range.
  { apply orb_true_iff in space. destruct space as [e | r].
    - left. apply N.eqb_eq. exact e.
    - right. apply andb_true_iff in r. destruct r as [lo hi].
      split; apply N.leb_le; assumption. }
  assert ((c <? 128)%N = true) as small by (apply N.ltb_lt; lia).
  assert ((65 <=? c)%N = false) as below by (apply N.leb_gt; lia).
  rewrite small, below. simpl. apply N.eqb_refl.
Qed.

Lemma known_location_fixed (key : pystr) :
  In key known_locations ->
  forallb (fun c => is_ascii c && (ascii_lower c =? c)%N) key = true.
Proof.
  intros known. simpl in known.
  repeat (destruct known as [<- | known]; [reflexivity |]). contradiction.
Qed.

(** A known location neither starts nor ends with a space character. *)
Lemma known_location_ends (key : pystr) :
  In key known_locations ->
  is_ascii_space (hd 0%N key) = false /\ is_ascii_space (hd 0%N (rev key)) = false.
Proof.
  intros known. simpl in known.
  repeat (destruct known as [<- | known]; [split; reflexivity |]). contradiction.
Qed.

Lemma padded_unknown (pad key : pystr) :
  pad <> [] -> forallb is_ascii_space pad = true ->
  ~ In (pad ++ key) known_locations /\ ~ In (key ++ pad) known_locations.
Proof.
  intros nonempty spaces. split; intros known;
    apply known_location_ends in known; destruct known as [first last].
  - destruct pad as [| c pad']; [contradiction |].
    simpl in spaces, first. apply andb_true_iff in spaces.
    destruct spaces as [hc _]. congruence.
  - rewrite rev_app_distr in last.
    destruct (rev pad) as [| c back] eqn:reversed.
    + apply nonempty. rewrite <- (rev_involutive pad), reversed. reflexivity.
    + simpl in last.
      assert (In c pad) as inpad.
      { apply in_rev. rewrite reversed. left. reflexivity. }
      rewrite (proj1 (forallb_forall _ _) spaces c inpad) in last. discriminate.
Qed.

(** C10.  Nothing but lower-casing normalizes the location: a known name
    with space characters before it or after it is not looked up as that
    name, and gets the default record, which is not the record of the
    name. *)
Theorem get_weather_no_trimming (pad key : pystr) (st : pystate World) :
  In key known_locations ->
  pad <> [] ->
  forallb is_ascii_space pad = true ->
  fst (get_weather unicode_lower World ExtError (pad ++ key) st) = inr default_weather /\
  fst (get_weather unicode_lower World ExtError (key ++ pad) st) = inr default_weather /\
  fst (get_weather unicode_lower World ExtError key st) <> inr default_weather.
Proof.
  intros known nonempty spaces.
  assert (forallb (fun c => is_ascii c && (ascii_lower c =? c)%N) pad = true) as padfixed.
  { apply forallb_forall. intros c inpad. apply space_lower_fixed.
    exact (proj1 (forallb_forall _ _) spaces c inpad). }
  pose proof (known_location_fixed key known) as keyfixed.
  destruct (padded_unknown pad key nonempty spaces) as [front back].
  split; [| split].
  - rewrite get_weather_result, str_lower_fixed.
    + rewrite (weather_of_unknown _ front). reflexivity.
    + rewrite forallb_app, padfixed, keyfixed. reflexivity.
  - rewrite get_weather_result, str_lower_fixed.
    + rewrite (weather_of_unknown _ back). reflexivity.
    + rewrite forallb_app, padfixed, keyfixed. reflexivity.
  - rewrite get_weather_result, (str_lower_fixed _ _ keyfixed).
    simpl in known.
    repeat (destruct known as [<- | known]; [discriminate |]). contradiction.
Qed.

End Tools.

(** ** The factory *)

Section Factory.

Variable unicode_lower : pystr -> pystr.
Variable int_max_str_digits : nat.
Variables (World ExtError Client AIFunction : Type).
Variable ai_function : callable World ExtError -> AIFunction.
Variable repr_tool : AIFunction -> pystr.
Variable repr_client_type : Client -> pystr.

(** The three adjacent literals of the source make one string. *)
Lemma weather_agent_instructions_text :
  weather_agent_instructions =
  lit "You are a helpful weather assistant. Use the get_weather and get_forecast functions to help users with weather information. Always provide friendly and informative responses.".
Proof. reflexivity. Qed.

(** One call of the factory: three log records, one call of the
    constructor, and a fourth log record when the constructor returned. *)
Lemma weather_agent_run (Agent : Type)
    (ChatAgent : ChatAgentArgs Client AIFunction -> World -> (ExtError + Agent) * World)
    (chat_client : Client) (st : pystate World) :
  exists before after,
    weather_agent unicode_lower int_max_str_digits ai_function repr_tool repr_client_type
                  ChatAgent chat_client st =
    match ChatAgent (MkChatAgentArgs (lit "weather_agent") weather_agent_instructions
                       chat_client
                       [get_weather_tool unicode_lower ai_function;
                        get_forecast_tool int_max_str_digits ai_function])
                    (st_world st) with
    | (inl e, w) => (inl (External e), PyState (st_log st ++ before) w)
    | (inr agent, w) => (inr agent, PyState (st_log st ++ before ++ after) w)
    end /\
    List.length before = 3%nat /\
    after = [LogRecord INFO (lit "[weather_agent] Weather agent created successfully")].
Proof.
  unfold weather_agent, bind, logger, call_ChatAgent, ret. cbn [st_log st_world].
  do 2 eexists. split; [| split; [| reflexivity]].
  - destruct (ChatAgent _ (st_world st)) as [[e | agent] w].
    + rewrite <- !app_assoc. cbn [app]. reflexivity.
    + cbn [st_log st_world]. rewrite <- !app_assoc. cbn [app]. reflexivity.
  - reflexivity.
Qed.

(** C6.  Whatever the constructor, the factory calls it with the name
    weather_agent, the fixed instruction string, the client it was given
    and the list of the two tools: what the factory returns or raises, and
    the state of the framework afterwards, are those of that call.  With
    the constructor of the specification and a client it accepts, the
    handle records the name weather_agent, the instructions, the client and
    exactly the two tools. *)
Theorem weather_agent_configuration (chat_client : Client) (st : pystate World) :
  let args :=
    MkChatAgentArgs
      (lit "weather_agent")
      (lit "You are a helpful weather assistant. Use the get_weather and get_forecast functions to help users with weather information. Always provide friendly and informative responses.")
      chat_client
      [ai_function (LocationTool (get_weather unicode_lower World ExtError));
       ai_function (LocationDaysTool (get_forecast int_max_str_digits World ExtError))] in
  (forall (Agent : Type)
          (ChatAgent : ChatAgentArgs Client AIFunction -> World ->
                       (ExtError + Agent) * World),
     fst (weather_agent unicode_lower int_max_str_digits ai_function repr_tool repr_client_type
            ChatAgent chat_client st)
       = outcome (fst (ChatAgent args (st_world st))) /\
     st_world (snd (weather_agent unicode_lower int_max_str_digits ai_function repr_tool
                      repr_client_type ChatAgent chat_client st))
       = snd (ChatAgent args (st_world st))) /\
  (forall client_error : Client -> option ExtError,
     client_error chat_client = None ->
     exists handle,
       fst (weather_agent unicode_lower int_max_str_digits ai_function repr_tool repr_client_type
              (ChatAgent_model client_error) chat_client st) = inr handle /\
       agent_name handle = lit "weather_agent" /\
       agent_instructions handle = arg_instructions args /\
       agent_chat_client handle = chat_client /\
       agent_tools handle = [get_weather_tool unicode_lower ai_function;
                             get_forecast_tool int_max_str_digits ai_function] /\
       List.length (agent_tools handle) = 2%nat).
Proof.
  intros args. split.
  - intros Agent ChatAgent.
    destruct (weather_agent_run Agent ChatAgent chat_client st)
      as [before [after [run _]]].
    change (MkChatAgentArgs (lit "weather_agent") weather_agent_instructions
              chat_client
              [get_weather_tool unicode_lower ai_function;
               get_forecast_tool int_max_str_digits ai_function]) with args in run.
    rewrite run.
    destruct (ChatAgent args (st_world st)) as [[e | agent] w]; split; reflexivity.
  - intros client_error accepted.
    destruct (weather_agent_run _ (ChatAgent_model client_error) chat_client st)
      as [before [after [run _]]].
    rewrite run. unfold ChatAgent_model. cbn [arg_chat_client].
    rewrite accepted. eexists. split; [reflexivity |].
    cbn [agent_name agent_instructions agent_chat_client agent_tools
         arg_name arg_instructions arg_tools args].
    repeat split; reflexivity.
Qed.

(** C7.  The factory adds nothing to the constructor's call: an error the
    constructor raises leaves the factory as it is, an agent the
    constructor returns is returned as it is, the framework is left in the
    state of that single call, and the factory raises nothing of its own. *)
Theorem weather_agent_pass_through (Agent : Type)
    (ChatAgent : ChatAgentArgs Client AIFunction -> World -> (ExtError + Agent) * World)
    (chat_client : Client) (st : pystate World) :
  let call :=
    ChatAgent (MkChatAgentArgs (lit "weather_agent") weather_agent_instructions
                 chat_client
                 [get_weather_tool unicode_lower ai_function;
                  get_forecast_tool int_max_str_digits ai_function])
              (st_world st) in
  let run :=
    weather_agent unicode_lower int_max_str_digits ai_function repr_tool repr_client_type
                  ChatAgent chat_client st in
  (forall e, fst call = inl e -> fst run = inl (External e)) /\
  (forall agent, fst call = inr agent -> fst run = inr agent) /\
  st_world (snd run) = snd call /\
  (forall key, fst run <> inl (KeyError key)) /\
  (exists before,
     List.length before = 3%nat /\
     st_log (snd run) =
     st_log st ++ before ++
     match fst call with
     | inl _ => []
     | inr _ => [LogRecord INFO (lit "[weather_agent] Weather agent created successfully")]
     end).
Proof.
  intros call run.
  destruct (weather_agent_run Agent ChatAgent chat_client st)
    as [before [after [eq [three last]]]].
  fold call in eq. fold run in eq. rewrite eq. subst after.
  destruct call as [[e | agent] w]; cbn [fst snd st_world st_log].
  - repeat split.
    + intros e' [= <-]. reflexivity.
    + intros agent [=].
    + intros key [=].
    + exists before. rewrite app_nil_r. split; [exact three | reflexivity].
  - repeat split.
    + intros e [=].
    + intros agent' [= <-]. reflexivity.
    + intros key [=].
    + exists before. split; [exact three | reflexivity].
Qed.

End Factory.

(** * Runs on concrete inputs *)

Example get_weather_SEATTLE :
  fst (get_weather no_unicode_lower unit Empty_set (lit "SEATTLE") (fresh tt))
    = inr (weather_record 11 (lit "rainy") 75 12 10).
Proof. vm_compute. reflexivity. Qed.

Example get_weather_New_York_City :
  fst (get_weather no_unicode_lower unit Empty_set (lit "New York City") (fresh tt))
    = inr (weather_record 18 (lit "sunny") 60 10 17).
Proof. vm_compute. reflexivity. Qed.

(** A string whose lower case is none of the keys. *)
Lemma get_weather_unknown_london :
  ~ In (str_lower no_unicode_lower (lit "London")) known_locations /\
  fst (get_weather no_unicode_lower unit Empty_set (lit "London") (fresh tt))
    = inr default_weather.
Proof.
  assert (~ In (str_lower no_unicode_lower (lit "London")) known_locations)
    as unknown.
  { vm_compute. intuition discriminate. }
  split; [exact unknown |].
  exact (proj1 (proj2 (get_weather_unknown_location no_unicode_lower unit
                         Empty_set (lit "London") (fresh tt))) unknown).
Defined.

(** Ten days asked for Paris: the header says ten, seven lines follow. *)
Lemma get_forecast_days_paris_10 :
  1 <= 10 /\
  int_str_too_long default_int_max_str_digits 10 = false /\
  fst (get_forecast default_int_max_str_digits unit Empty_set (lit "Paris") 10 (fresh tt))
    = inr (str_join newline
             [lit "10-day forecast for Paris:";
              lit "Day 1: Partly cloudy, 62" ++ degree_sign ++ lit "F";
              lit "Day 2: Partly cloudy, 64" ++ degree_sign ++ lit "F";
              lit "Day 3: Partly cloudy, 66" ++ degree_sign ++ lit "F";
              lit "Day 4: Partly cloudy, 68" ++ degree_sign ++ lit "F";
              lit "Day 5: Partly cloudy, 70" ++ degree_sign ++ lit "F";
              lit "Day 6: Partly cloudy, 72" ++ degree_sign ++ lit "F";
              lit "Day 7: Partly cloudy, 74" ++ degree_sign ++ lit "F"]) /\
  List.length (map spec_day_line (spec_days 10)) = 7%nat.
Proof.
  assert (1 <= 10) as positive by lia.
  assert (int_str_too_long default_int_max_str_digits 10 = false) as short
    by reflexivity.
  split; [exact positive | split; [exact short |]].
  destruct (get_forecast_days default_int_max_str_digits unit Empty_set
              (lit "Paris") 10 (fresh tt) positive short)
    as [text [count _]].
  split; [exact text | exact count].
Defined.

(** No day asked for Paris: the header line and nothing else. *)
Lemma get_forecast_nonpositive_paris_0 :
  0 <= 0 /\
  int_str_too_long default_int_max_str_digits 0 = false /\
  forecast_lines 0 = [] /\
  fst (get_forecast default_int_max_str_digits unit Empty_set (lit "Paris") 0 (fresh tt))
    = inr (lit "0-day forecast for Paris:" ++ newline).
Proof.
  assert (0 <= 0) as nonpositive by lia.
  assert (int_str_too_long default_int_max_str_digits 0 = false) as short
    by reflexivity.
  split; [exact nonpositive | split; [exact short |]].
  exact (proj2 (proj2 (get_forecast_nonpositive default_int_max_str_digits unit
                         Empty_set (lit "Paris") 0 (fresh tt)))
           nonpositive short).
Defined.

(** A space before or after seattle. *)
Lemma get_weather_no_trimming_seattle :
  fst (get_weather no_unicode_lower unit Empty_set (lit " seattle") (fresh tt))
    = inr default_weather /\
  fst (get_weather no_unicode_lower unit Empty_set (lit "seattle ") (fresh tt))
    = inr default_weather /\
  fst (get_weather no_unicode_lower unit Empty_set (lit "seattle") (fresh tt))
    <> inr default_weather.
Proof.
  assert (In (lit "seattle") known_locations) as known by (left; reflexivity).
  assert (lit " " <> []) as nonempty by discriminate.
  assert (forallb is_ascii_space (lit " ") = true) as spaces by reflexivity.
  exact (get_weather_no_trimming no_unicode_lower unit Empty_set
           (lit " ") (lit "seattle") (fresh tt) known nonempty spaces).
Defined.

(** The factory over the constructor of the specification, with a stub
    client that it accepts. *)
Lemma weather_agent_configuration_stub :
  exists handle,
    fst (weather_agent no_unicode_lower default_int_max_str_digits
           stub_ai_function stub_repr_tool
           stub_repr_client_type
           (ChatAgent_model (ExtError := pystr) (fun _ => None)) tt (fresh 0%nat))
      = inr handle /\
    agent_name handle = lit "weather_agent" /\
    agent_tools handle = [LocationTool (get_weather no_unicode_lower nat pystr);
                          LocationDaysTool (get_forecast default_int_max_str_digits nat pystr)].
Proof.
  destruct (proj2 (weather_agent_configuration no_unicode_lower
                     default_int_max_str_digits nat pystr unit
                     (callable nat pystr) stub_ai_function stub_repr_tool
                     stub_repr_client_type tt (fresh 0%nat))
                  (fun _ => None) eq_refl)
    as [handle [returned [name [_ [_ [tools _]]]]]].
  exists handle. split; [exact returned | split; [exact name | exact tools]].
Defined.

(** The factory over a constructor that refuses the client: the error
    comes out as it is, after one call. *)
Lemma weather_agent_pass_through_refused :
  fst (weather_agent no_unicode_lower default_int_max_str_digits
           stub_ai_function stub_repr_tool
         stub_repr_client_type refusing_ChatAgent tt (fresh 0%nat))
    = inl (External (lit "invalid client")) /\
  st_world (snd (weather_agent no_unicode_lower default_int_max_str_digits
           stub_ai_function stub_repr_tool
                   stub_repr_client_type refusing_ChatAgent tt (fresh 0%nat)))
    = 1%nat.
Proof.
  destruct (weather_agent_pass_through no_unicode_lower
              default_int_max_str_digits nat pystr unit
              (callable nat pystr) stub_ai_function stub_repr_tool
              stub_repr_client_type unit refusing_ChatAgent tt (fresh 0%nat))
    as [raised [_ [world _]]].
  split; [exact (raised (lit "invalid client") eq_refl) | exact world].
Defined.

(** * Further properties of the tools *)

(** ** Decimal digits and lines *)

Lemma lit_uint_digits (d : Decimal.uint) (c : N) :
  In c (lit (NilEmpty.string_of_uint d)) -> (48 <= c <= 57)%N.
Proof.
  induction d; simpl; intros i;
    try contradiction;
    destruct i as [<- | i]; try (vm_compute; split; discriminate);
    exact (IHd i).
Qed.

(** [str(n)] holds digits and at most a minus sign: no line feed. *)
Lemma str_of_int_one_line (n : Z) : ~ In 10%N (str_of_int n).
Proof.
  unfold str_of_int. intros i.
  assert (forall d, In 10%N (lit (NilZero.string_of_uint d)) -> False) as digits.
  { intros d j. destruct d; try (apply lit_uint_digits in j; lia).
    vm_compute in j. intuition discriminate. }
  destruct (Z.to_int n) as [d | d]; simpl in i.
  - exact (digits d i).
  - destruct i as [e | i]; [discriminate e | exact (digits d i)].
Qed.

Lemma split_lines_one (p : pystr) : ~ In 10%N p -> split_lines p = [p].
Proof.
  induction p as [| c rest IH]; intros free; [reflexivity |].
  simpl. destruct (N.eqb_spec c 10) as [-> | different].
  - exfalso. apply free. left. reflexivity.
  - rewrite IH; [reflexivity |]. intros i. apply free. right. exact i.
Qed.

Lemma split_lines_app (p rest : pystr) :
  ~ In 10%N p -> split_lines (p ++ newline ++ rest) = p :: split_lines rest.
Proof.
  induction p as [| c p' IH]; intros free.
  - reflexivity.
  - simpl. destruct (N.eqb_spec c 10) as [-> | different].
    + exfalso. apply free. left. reflexivity.
    + simpl in IH. rewrite IH; [reflexivity |].
      intros i. apply free. right. exact i.
Qed.

(** Splitting undoes joining, when no part holds a line feed. *)
Lemma split_lines_join (parts : list pystr) :
  parts <> [] -> Forall (fun p => ~ In 10%N p) parts ->
  split_lines (str_join newline parts) = parts.
Proof.
  induction parts as [| p rest IH]; intros nonempty free; [contradiction |].
  inversion free as [| p' rest' hp hrest]; subst.
  destruct rest as [| q rest'].
  - simpl. apply split_lines_one. exact hp.
  - change (str_join newline (p :: q :: rest'))
      with (p ++ newline ++ str_join newline (q :: rest')).
    rewrite (split_lines_app _ _ hp), IH; [reflexivity | discriminate | exact hrest].
Qed.

Lemma spec_header_one_line (days : Z) (location : pystr) :
  ~ In 10%N location -> ~ In 10%N (spec_header days location).
Proof.
  intros free i. unfold spec_header in i.
  apply in_app_or in i. destruct i as [i | i]; [exact (str_of_int_one_line days i) |].
  apply in_app_or in i. destruct i as [i | i].
  - vm_compute in i. intuition discriminate.
  - apply in_app_or in i. destruct i as [i | i]; [exact (free i) |].
    vm_compute in i. intuition discriminate.
Qed.

Lemma spec_days_length (days : Z) :
  List.length (spec_days days) = Z.to_nat (Z.min days 7).
Proof. unfold spec_days. rewrite length_map, length_seq. reflexivity. Qed.

Lemma spec_days_saturate (days : Z) : 7 <= days -> spec_days days = spec_days 7.
Proof.
  intros large. unfold spec_days.
  replace (Z.min days 7) with (Z.min 7 7) by lia. reflexivity.
Qed.

Lemma spec_days_prefix (days more : Z) :
  days <= more -> exists rest, spec_days more = spec_days days ++ rest.
Proof.
  intros le. unfold spec_days.
  set (n := Z.to_nat (Z.min days 7)). set (m := Z.to_nat (Z.min more 7)).
  assert (m = n + (m - n))%nat as split by (unfold n, m; lia).
  rewrite split, seq_app, map_app. eexists. reflexivity.
Qed.

Lemma ascii_lower_idem (c : N) :
  is_ascii c = true ->
  is_ascii (ascii_lower c) = true /\ ascii_lower (ascii_lower c) = ascii_lower c.
Proof.
  unfold is_ascii, ascii_lower. intros small. apply N.ltb_lt in small.
  destruct (N.leb_spec 65 c); destruct (N.leb_spec c 90); cbn [andb].
  all: split; [apply N.ltb_lt; lia |].
  all: repeat match goal with
              | |- context [(?a <=? ?b)%N] => destruct (N.leb_spec a b)
              end; cbn [andb]; lia.
Qed.

(** Lower-casing an all-ASCII string twice is lower-casing it once. *)
Lemma str_lower_idem (unicode_lower : pystr -> pystr) (s : pystr) :
  forallb is_ascii s = true ->
  str_lower unicode_lower (str_lower unicode_lower s) = str_lower unicode_lower s.
Proof.
  intros ascii. unfold str_lower at 2 3. rewrite ascii.
  unfold str_lower.
  assert (forallb is_ascii (map ascii_lower s) = true /\
          map ascii_lower (map ascii_lower s) = map ascii_lower s) as [ha hl].
  { induction s as [| c rest IH]; [split; reflexivity |].
    simpl in ascii. apply andb_true_iff in ascii. destruct ascii as [hc hrest].
    destruct (ascii_lower_idem c hc) as [la ll]. destruct (IH hrest) as [IHa IHl].
    simpl. rewrite la, IHa, ll, IHl. split; reflexivity. }
  rewrite ha. exact hl.
Qed.

(** ** Reading the number of days back *)

Lemma lit_inj (a b : string) : lit a = lit b -> a = b.
Proof.
  unfold lit. intros e.
  apply (f_equal (map ascii_of_N)) in e.
  rewrite !map_map in e.
  rewrite !(map_ext _ (fun a => a) ascii_N_embedding), !map_id in e.
  apply (f_equal string_of_list_ascii) in e.
  rewrite !string_of_list_ascii_of_string in e. exact e.
Qed.

Lemma str_of_int_inj (n m : Z) : str_of_int n = str_of_int m -> n = m.
Proof.
  unfold str_of_int. intros e. apply lit_inj in e.
  assert (forall z, Z.to_int z <> Decimal.Pos Decimal.Nil /\
                    Z.to_int z <> Decimal.Neg Decimal.Nil) as proper.
  { intros [| p | p]; simpl; split; try discriminate;
      intros [= bad]; exact (DecimalPos.Unsigned.to_uint_nonnil p bad). }
  apply DecimalZ.to_int_inj.
  destruct (proper n) as [pn nn]. destruct (proper m) as [pm nm].
  pose proof (NilZero.isi _ pn nn) as back.
  rewrite e, (NilZero.isi _ pm nm) in back.
  injection back as back. symmetry. exact back.
Qed.

(** [str(n)] is a run of at least one digit, after a minus sign when [n]
    is negative. *)
Lemma str_of_int_shape (n : Z) :
  exists sign digits,
    str_of_int n = sign ++ digits /\
    (sign = [] \/ sign = [45%N]) /\
    digits <> [] /\
    Forall (fun c => 48 <= c <= 57)%N digits.
Proof.
  assert (forall d, d <> Decimal.Nil ->
                    lit (NilZero.string_of_uint d) <> [] /\
                    Forall (fun c => 48 <= c <= 57)%N (lit (NilZero.string_of_uint d)))
    as digits.
  { intros d nonnil. split.
    - destruct d; discriminate.
    - apply Forall_forall. intros c i.
      destruct d; try (exact (lit_uint_digits _ c i)).
      exfalso. apply nonnil. reflexivity. }
  assert (forall z d, Z.to_int z = Decimal.Pos d \/ Z.to_int z = Decimal.Neg d ->
                      d <> Decimal.Nil) as proper.
  { intros [| p | p] d [e | e]; simpl in e; try discriminate;
      injection e as <-; try discriminate;
      apply DecimalPos.Unsigned.to_uint_nonnil. }
  unfold str_of_int. destruct (Z.to_int n) as [d | d] eqn:e.
  - destruct (digits d (proper n d (or_introl e))) as [nonempty all].
    exists [], (lit (NilZero.string_of_uint d)).
    split; [reflexivity | split; [left; reflexivity | split; assumption]].
  - destruct (digits d (proper n d (or_intror e))) as [nonempty all].
    exists [45%N], (lit (NilZero.string_of_uint d)).
    split; [reflexivity | split; [right; reflexivity | split; assumption]].
Qed.

(** Two runs of digits, each followed by a minus sign, that start the same
    text are the same run. *)
Lemma digits_prefix (d1 d2 r1 r2 : pystr) :
  Forall (fun c => 48 <= c <= 57)%N d1 ->
  Forall (fun c => 48 <= c <= 57)%N d2 ->
  d1 ++ 45%N :: r1 = d2 ++ 45%N :: r2 -> d1 = d2.
Proof.
  revert d2. induction d1 as [| c d1' IH]; intros d2 all1 all2 e.
  - destruct d2 as [| c2 d2']; [reflexivity |].
    simpl in e. injection e as e _. inversion all2 as [| x l hx hl]; subst. lia.
  - destruct d2 as [| c2 d2'].
    + simpl in e. injection e as e _. inversion all1 as [| x l hx hl]; subst. lia.
    + simpl in e. injection e as ec e.
      inversion all1; inversion all2; subst.
      f_equal. apply IH; assumption.
Qed.

Lemma str_of_int_prefix (n m : Z) (r1 r2 : pystr) :
  str_of_int n ++ 45%N :: r1 = str_of_int m ++ 45%N :: r2 -> n = m.
Proof.
  intros e. apply str_of_int_inj.
  destruct (str_of_int_shape n) as [s1 [d1 [shape1 [sign1 [non1 all1]]]]].
  destruct (str_of_int_shape m) as [s2 [d2 [shape2 [sign2 [non2 all2]]]]].
  rewrite shape1, shape2 in e |- *.
  rewrite <- !app_assoc in e.
  destruct sign1 as [-> | ->]; destruct sign2 as [-> | ->]; simpl in e |- *.
  - exact (digits_prefix _ _ _ _ all1 all2 e).
  - destruct d1 as [| c d1']; [contradiction |].
    simpl in e. injection e as e _. inversion all1; subst. lia.
  - destruct d2 as [| c d2']; [contradiction |].
    simpl in e. injection e as e _. inversion all2; subst. lia.
  - injection e as e. f_equal. exact (digits_prefix _ _ _ _ all1 all2 e).
Qed.

Section MoreTools.

Variable unicode_lower : pystr -> pystr.
Variable int_max_str_digits : nat.
Variables (World ExtError : Type).

(** X1.  The default record is returned exactly when the lower-cased
    location is none of the five keys; when it is one of them, also for a
    string that only the Unicode tables lower to it, the record returned is
    the table's entry for it, and that entry is not the default record. *)
Theorem get_weather_default_iff (location : pystr) (st : pystate World) :
  (fst (get_weather unicode_lower World ExtError location st) = inr default_weather
   <-> ~ In (str_lower unicode_lower location) known_locations) /\
  (In (str_lower unicode_lower location) known_locations ->
   exists record,
     In (str_lower unicode_lower location, record) weather_data /\
     fst (get_weather unicode_lower World ExtError location st) = inr record /\
     record <> default_weather).
Proof.
  rewrite get_weather_result.
  assert (In (str_lower unicode_lower location) known_locations ->
          exists record,
            In (str_lower unicode_lower location, record) weather_data /\
            weather_of (str_lower unicode_lower location) = record /\
            record <> default_weather) as hit.
  { intros known. simpl in known.
    repeat (destruct known as [<- | known];
            [eexists; split; [| split; [reflexivity | discriminate]];
             simpl; intuition reflexivity |]).
    contradiction. }
  split; [split |].
  - intros default known. destruct (hit known) as [record [_ [found other]]].
    apply other. rewrite <- found. injection default as e. exact e.
  - intros unknown. rewrite (weather_of_unknown _ unknown). reflexivity.
  - intros known. destruct (hit known) as [record [inn [found other]]].
    exists record. rewrite found. repeat split; assumption.
Qed.

(** X2.  The casing of an all-ASCII location never matters: any casing of
    the string, and its lower case, get the record the string gets. *)
Theorem get_weather_case_insensitive (mask : list bool) (location : pystr)
    (st1 st2 : pystate World) :
  forallb is_ascii location = true ->
  fst (get_weather unicode_lower World ExtError (apply_casing mask location) st1)
    = fst (get_weather unicode_lower World ExtError location st2) /\
  fst (get_weather unicode_lower World ExtError
         (str_lower unicode_lower location) st1)
    = fst (get_weather unicode_lower World ExtError location st2).
Proof.
  intros ascii. rewrite !get_weather_result. split.
  - rewrite (str_lower_casing _ _ _ ascii). unfold str_lower. rewrite ascii.
    reflexivity.
  - rewrite (str_lower_idem _ _ ascii). reflexivity.
Qed.

(** X3.  Whatever the location, the record returned is one of six: the
    default one or an entry of the table.  So the temperature lies between
    9 and 29, the humidity between 50 and 90, the wind speed between 5 and
    20, and the felt temperature within 3 degrees of the temperature. *)
Theorem get_weather_image (location : pystr) (st : pystate World) :
  exists temperature conditions humidity wind_speed feels_like,
    fst (get_weather unicode_lower World ExtError location st)
      = inr (weather_record temperature conditions humidity wind_speed feels_like) /\
    In (weather_record temperature conditions humidity wind_speed feels_like)
       (default_weather :: map snd weather_data) /\
    9 <= temperature <= 29 /\
    50 <= humidity <= 90 /\
    5 <= wind_speed <= 20 /\
    -3 <= feels_like - temperature <= 3.
Proof.
  rewrite get_weather_result. unfold weather_of.
  destruct (dict_get (str_lower unicode_lower location) weather_data)
    as [record |] eqn:found.
  - apply dict_get_In in found. simpl in found.
    repeat (destruct found as [[= _ <-] | found];
            [do 5 eexists; split; [reflexivity |];
             split; [simpl; intuition reflexivity | lia] |]).
    contradiction.
  - do 5 eexists. split; [reflexivity |].
    split; [left; reflexivity | lia].
Qed.

(** ** More on the forecast *)

(** X4.  Whatever the number of days, the loop appends min(days, 7) lines,
    never more than seven; the number of lines is the number of days asked
    for exactly when that number lies between 0 and 7; and from 7 days on
    the lines are those of 7 days: only the header differs, as long as the
    interpreter agrees to write the number of days, and otherwise the call
    raises [ValueError]. *)
Theorem get_forecast_at_most_seven (location : pystr) (days : Z) (st : pystate World) :
  List.length (forecast_lines days) = Z.to_nat (Z.min days 7) /\
  (List.length (forecast_lines days) <= 7)%nat /\
  (Z.of_nat (List.length (forecast_lines days)) = days <-> 0 <= days <= 7) /\
  (7 <= days ->
   forecast_lines days = forecast_lines 7 /\
   (int_str_too_long int_max_str_digits days = false ->
    fst (get_forecast int_max_str_digits World ExtError location days st)
      = inr (spec_header days location ++ newline ++
             str_join newline (forecast_lines 7))) /\
   (int_str_too_long int_max_str_digits days = true ->
    fst (get_forecast int_max_str_digits World ExtError location days st)
      = inl (ValueError int_max_str_digits))).
Proof.
  assert (List.length (forecast_lines days) = Z.to_nat (Z.min days 7)) as count.
  { rewrite forecast_lines_spec, length_map. apply spec_days_length. }
  split; [exact count | split; [| split]].
  - rewrite count. lia.
  - rewrite count. lia.
  - intros large.
    assert (forecast_lines days = forecast_lines 7) as same.
    { rewrite !forecast_lines_spec, (spec_days_saturate days large). reflexivity. }
    split; [exact same | split].
    + intros short.
      rewrite (get_forecast_result _ _ _ _ _ _ short), same. unfold spec_header.
      rewrite <- !app_assoc. reflexivity.
    + intros long. rewrite (get_forecast_raise _ _ _ _ _ _ long). reflexivity.
Qed.

(** X5.  Asking for more days only adds lines at the end: the lines of a
    forecast are the first lines of every forecast for more days. *)
Theorem forecast_lines_prefix (days more : Z) :
  days <= more ->
  exists rest,
    forecast_lines more = forecast_lines days ++ rest /\
    List.length rest = (Z.to_nat (Z.min more 7) - Z.to_nat (Z.min days 7))%nat.
Proof.
  intros le. destruct (spec_days_prefix days more le) as [rest split].
  exists (map spec_day_line rest).
  assert (forecast_lines more = forecast_lines days ++ map spec_day_line rest) as eq.
  { rewrite !forecast_lines_spec, split, map_app. reflexivity. }
  split; [exact eq |].
  apply (f_equal (@List.length pystr)) in eq.
  rewrite length_app, !forecast_lines_spec, !length_map, !spec_days_length in eq.
  rewrite length_map. lia.
Qed.

(** X6.  The text tells the request: [get_forecast] writes the number of
    days and the location into the header as they are given (the location
    is not lower-cased, the number of days is not clamped), so two requests
    that differ in the location, be it only by the case of a letter, or in
    the number of days never have the same outcome, unless both numbers of
    days have too many digits for the interpreter and both calls raise. *)
Theorem get_forecast_request_in_text (location1 location2 : pystr) (days1 days2 : Z)
    (st1 st2 : pystate World) :
  int_str_too_long int_max_str_digits days1 = false \/
  int_str_too_long int_max_str_digits days2 = false ->
  location1 <> location2 \/ days1 <> days2 ->
  fst (get_forecast int_max_str_digits World ExtError location1 days1 st1)
    <> fst (get_forecast int_max_str_digits World ExtError location2 days2 st2).
Proof.
  intros short different same.
  destruct (int_str_too_long int_max_str_digits days1) eqn:long1;
    destruct (int_str_too_long int_max_str_digits days2) eqn:long2.
  1: destruct short; discriminate.
  1: rewrite (get_forecast_raise _ _ _ _ _ _ long1),
       (get_forecast_result _ _ _ _ _ _ long2) in same; discriminate same.
  1: rewrite (get_forecast_result _ _ _ _ _ _ long1),
       (get_forecast_raise _ _ _ _ _ _ long2) in same; discriminate same.
  rewrite (get_forecast_result _ _ _ _ _ _ long1),
    (get_forecast_result _ _ _ _ _ _ long2) in same.
  apply (f_equal (fun r : pyexn ExtError + pystr =>
                    match r with inr text => text | inl _ => [] end)) in same.
  cbv beta iota in same.
  assert (days1 = days2) as samedays.
  { change (lit "-day forecast for ") with (45%N :: lit "day forecast for ") in same.
    simpl app in same. exact (str_of_int_prefix _ _ _ _ same). }
  subst days2.
  apply app_inv_head in same. apply app_inv_head in same.
  apply app_inv_tail in same.
  destruct different as [d | d]; [exact (d same) | exact (d eq_refl)].
Qed.

(** X8.  For a location without line feed and a number of days the
    interpreter agrees to write, splitting the text at its line feeds gives
    back the header and then the forecast lines; when no day is asked for
    ([days <= 0]) it gives the header and one empty piece, since the text
    ends with the line feed that follows the header. *)
Theorem get_forecast_split_lines (location : pystr) (days : Z) (st : pystate World) :
  ~ In 10%N location ->
  int_str_too_long int_max_str_digits days = false ->
  exists text,
    fst (get_forecast int_max_str_digits World ExtError location days st) = inr text /\
    split_lines text =
    spec_header days location ::
    (if 1 <=? days then map spec_day_line (spec_days days) else [[]]).
Proof.
  intros free short. eexists.
  split; [apply (get_forecast_result _ _ _ _ _ _ short) |].
  pose proof (spec_header_one_line days location free) as header.
  change (str_of_int days ++ lit "-day forecast for " ++ location ++ lit ":" ++
          newline ++ str_join newline (forecast_lines days))
    with (str_of_int days ++ lit "-day forecast for " ++ location ++ lit ":" ++
          (newline ++ str_join newline (forecast_lines days))).
  rewrite !app_assoc. rewrite <- (app_assoc (str_of_int days)).
  rewrite <- (app_assoc (str_of_int days)).
  change (str_of_int days ++ lit "-day forecast for " ++ location ++ lit ":")
    with (spec_header days location).
  rewrite <- app_assoc, (split_lines_app _ _ header), forecast_lines_spec.
  f_equal. destruct (Z.leb_spec 1 days) as [positive | nonpositive].
  - apply split_lines_join.
    + intros empty. apply map_eq_nil in empty.
      assert (In 1 (spec_days days)) as one by (apply spec_days_In; lia).
      rewrite empty in one. exact one.
    + apply Forall_forall. intros line inl. apply in_map_iff in inl.
      destruct inl as [n [<- inn]]. exact (spec_day_line_one_line days n inn).
  - rewrite spec_days_nonpositive by lia. reflexivity.
Qed.

(** ** The log *)

Lemma get_weather_log (location : pystr) (st : pystate World) :
  exists entries,
    snd (get_weather unicode_lower World ExtError location st)
      = PyState (st_log st ++ entries) (st_world st) /\
    List.length entries = 5%nat.
Proof.
  unfold get_weather, bind, logger. cbn [st_log st_world].
  destruct (dict_contains (str_lower unicode_lower location) weather_data) eqn:hit.
  - match goal with
    | |- context [dict_getitem ?k ?d ?s] =>
        destruct (@dict_getitem_contains World ExtError _ k d s hit) as [v [hv hrun]]
    end.
    rewrite hrun. unfold ret. cbn [st_log st_world snd].
    eexists. rewrite <- !app_assoc. split; reflexivity.
  - unfold ret. cbn [st_log st_world snd].
    eexists. rewrite <- !app_assoc. split; reflexivity.
Qed.

(** X7.  A sequence of calls of the two tools only appends to the log:
    the records logged before stay in place, five records are added by
    each call of [get_weather], three by each call of [get_forecast] that
    returns and none by one that raises (the number of days has too many
    digits), and the state of the framework is not touched. *)
Theorem run_calls_log (calls : list tool_call) (st : pystate World) :
  st_world (run_calls unicode_lower int_max_str_digits World ExtError calls st) = st_world st /\
  exists entries,
    st_log (run_calls unicode_lower int_max_str_digits World ExtError calls st) = st_log st ++ entries /\
    List.length entries
      = list_sum (map (records_of_call int_max_str_digits) calls).
Proof.
  revert st. induction calls as [| c rest IH]; intros st.
  - split; [reflexivity |]. exists []. rewrite app_nil_r. split; reflexivity.
  - assert (exists entries,
              run_call unicode_lower int_max_str_digits World ExtError c st
                = PyState (st_log st ++ entries) (st_world st) /\
              List.length entries = records_of_call int_max_str_digits c)
      as [first [step count]].
    { destruct c as [location | location days]; simpl.
      - apply get_weather_log.
      - apply get_forecast_appends. }
    change (run_calls unicode_lower int_max_str_digits World ExtError (c :: rest) st)
      with (run_calls unicode_lower int_max_str_digits World ExtError rest
              (run_call unicode_lower int_max_str_digits World ExtError c st)).
    destruct (IH (run_call unicode_lower int_max_str_digits World ExtError c st))
      as [world [later [log total]]].
    rewrite world, log, step. cbn [st_log st_world].
    split; [reflexivity |].
    exists (first ++ later). rewrite app_assoc. split; [reflexivity |].
    rewrite length_app, count, total. reflexivity.
Qed.

End MoreTools.

(** * Further runs on concrete inputs *)

(** New York City written with U+212A KELVIN SIGN for its k: the Unicode
    tables lower the string to the key. *)
Lemma get_weather_kelvin_sign :
  In (str_lower kelvin_unicode_lower (lit "New Yor" ++ [8490%N] ++ lit " City"))
     known_locations /\
  exists record,
    In (lit "new york city", record) weather_data /\
    fst (get_weather kelvin_unicode_lower unit Empty_set
           (lit "New Yor" ++ [8490%N] ++ lit " City") (fresh tt)) = inr record /\
    record <> default_weather.
Proof.
  assert (In (str_lower kelvin_unicode_lower
                (lit "New Yor" ++ [8490%N] ++ lit " City")) known_locations)
    as known by (right; right; left; reflexivity).
  split; [exact known |].
  exact (proj2 (get_weather_default_iff kelvin_unicode_lower unit Empty_set
                  (lit "New Yor" ++ [8490%N] ++ lit " City") (fresh tt)) known).
Defined.

(** Tokyo in mixed case, before and after other calls. *)
Lemma get_weather_case_insensitive_tokyo :
  forallb is_ascii (lit "tokyo") = true /\
  fst (get_weather no_unicode_lower unit Empty_set (lit "ToKyo") (fresh tt))
    = fst (get_weather no_unicode_lower unit Empty_set (lit "tokyo")
             (run_calls no_unicode_lower default_int_max_str_digits unit Empty_set
                [CallGetWeather (lit "miami")] (fresh tt))).
Proof.
  assert (forallb is_ascii (lit "tokyo") = true) as ascii by reflexivity.
  split; [exact ascii |].
  exact (proj1 (get_weather_case_insensitive no_unicode_lower unit Empty_set
                  [true; false; true] (lit "tokyo") (fresh tt)
                  (run_calls no_unicode_lower default_int_max_str_digits unit Empty_set
                     [CallGetWeather (lit "miami")] (fresh tt)) ascii)).
Defined.

(** A hundred days asked for: the seven lines of a week. *)
Lemma get_forecast_at_most_seven_100 :
  7 <= 100 /\
  int_str_too_long default_int_max_str_digits 100 = false /\
  forecast_lines 100 = forecast_lines 7 /\
  fst (get_forecast default_int_max_str_digits unit Empty_set
         (lit "Paris") 100 (fresh tt))
    = inr (lit "100-day forecast for Paris:" ++ newline ++
           str_join newline (forecast_lines 7)).
Proof.
  assert (7 <= 100) as large by lia.
  assert (int_str_too_long default_int_max_str_digits 100 = false) as short
    by reflexivity.
  split; [exact large | split; [exact short |]].
  destruct (proj2 (proj2 (proj2 (get_forecast_at_most_seven
                                   default_int_max_str_digits unit Empty_set
                                   (lit "Paris") 100 (fresh tt)))) large)
    as [same [returned _]].
  split; [exact same | exact (returned short)].
Defined.

(** Two days and five days. *)
Lemma forecast_lines_prefix_2_5 :
  2 <= 5 /\
  exists rest,
    forecast_lines 5 = forecast_lines 2 ++ rest /\ List.length rest = 3%nat.
Proof.
  assert (2 <= 5) as le by lia.
  split; [exact le |].
  exact (forecast_lines_prefix 2 5 le).
Defined.

(** Paris and paris are two locations for [get_forecast]. *)
Lemma get_forecast_request_in_text_paris :
  (int_str_too_long default_int_max_str_digits 3 = false \/
   int_str_too_long default_int_max_str_digits 3 = false) /\
  (lit "Paris" <> lit "paris" \/ 3 <> 3) /\
  fst (get_forecast default_int_max_str_digits unit Empty_set
         (lit "Paris") 3 (fresh tt))
    <> fst (get_forecast default_int_max_str_digits unit Empty_set
              (lit "paris") 3 (fresh tt)).
Proof.
  assert (int_str_too_long default_int_max_str_digits 3 = false \/
          int_str_too_long default_int_max_str_digits 3 = false) as short
    by (left; reflexivity).
  assert (lit "Paris" <> lit "paris" \/ 3 <> 3) as different
    by (left; discriminate).
  split; [exact short | split; [exact different |]].
  exact (get_forecast_request_in_text default_int_max_str_digits unit Empty_set
           (lit "Paris") (lit "paris") 3 3 (fresh tt) (fresh tt)
           short different).
Defined.

(** No day asked for Paris: the header, then an empty piece. *)
Lemma get_forecast_split_lines_paris_0 :
  ~ In 10%N (lit "Paris") /\
  int_str_too_long default_int_max_str_digits 0 = false /\
  exists text,
    fst (get_forecast default_int_max_str_digits unit Empty_set
           (lit "Paris") 0 (fresh tt)) = inr text /\
    split_lines text = [lit "0-day forecast for Paris:"; []].
Proof.
  assert (~ In 10%N (lit "Paris")) as free.
  { intros i. vm_compute in i. intuition discriminate. }
  assert (int_str_too_long default_int_max_str_digits 0 = false) as short
    by reflexivity.
  split; [exact free | split; [exact short |]].
  exact (get_forecast_split_lines default_int_max_str_digits unit Empty_set
           (lit "Paris") 0 (fresh tt) free short).
Defined.

(** * Numbers of days with too many digits *)

(** The number 10^4300 has 4301 digits, one more than the default limit:
    asked for that many days, [get_forecast] raises and returns no text. *)
Lemma get_forecast_days_too_long :
  1 <= 10 ^ 4300 /\
  fst (get_forecast default_int_max_str_digits unit Empty_set
         (lit "Paris") (10 ^ 4300) (fresh tt))
    = inl (ValueError 4300) /\
  ~ (exists text,
       fst (get_forecast default_int_max_str_digits unit Empty_set
              (lit "Paris") (10 ^ 4300) (fresh tt)) = inr text).
Proof.
  assert (int_str_too_long default_int_max_str_digits (10 ^ 4300) = true) as long
    by (vm_compute; reflexivity).
  pose proof (get_forecast_raise default_int_max_str_digits unit Empty_set
                (lit "Paris") (10 ^ 4300) (fresh tt) long) as run.
  split; [apply Z.leb_le; vm_compute; reflexivity | split].
  - exact (f_equal fst run).
  - intros [text returned].
    pose proof (eq_trans (eq_sym (f_equal fst run)) returned) as absurd.
    discriminate absurd.
Qed.

(** The same below zero: for -(10^4300) days the call fails, and logs
    nothing. *)
Lemma get_forecast_nonpositive_too_long :
  - 10 ^ 4300 <= 0 /\
  get_forecast default_int_max_str_digits unit Empty_set
    (lit "Paris") (- 10 ^ 4300) (fresh tt)
    = (inl (ValueError 4300), fresh tt) /\
  ~ (exists text,
       fst (get_forecast default_int_max_str_digits unit Empty_set
              (lit "Paris") (- 10 ^ 4300) (fresh tt)) = inr text).
Proof.
  assert (int_str_too_long default_int_max_str_digits (- 10 ^ 4300) = true)
    as long by (vm_compute; reflexivity).
  pose proof (get_forecast_raise default_int_max_str_digits unit Empty_set
                (lit "Paris") (- 10 ^ 4300) (fresh tt) long) as run.
  split; [apply Z.leb_le; vm_compute; reflexivity | split].
  - exact run.
  - intros [text returned].
    pose proof (eq_trans (eq_sym (f_equal fst run)) returned) as absurd.
    discriminate absurd.
Qed.
